(** * gotail: a shallow embedding of [gotail.go]

    The [Tail] object of gotail is modelled as a record whose fields are the
    ones the Go code reads and writes: the lines sent on [t.Lines], the
    [bufio.Reader] over the open file, the open file handle, the fsnotify
    watcher and the configuration.  Effects of the outside world (the file
    system seen by [os.Open], the outcome of [fsnotify.NewWatcher] and
    [Watcher.Add], the events delivered to the watcher goroutine and the
    moment the timeout goroutine fires) are inputs of the model.

    Modelling choices:
    - the [bufio.Reader] together with the file behind it is represented by
      the bytes not read yet (everything between the read position and the
      end of the file); an append to the followed file appends to it, a seek
      to the end empties it;
    - reads of a regular file fail only with [io.EOF];
    - handles and watchers are kept in stores (one open/closed flag per
      object ever created), so that closing is observable. *)

From Stdlib Require Import List String Ascii ZArith Bool Lia.
Import ListNotations.
Open Scope string_scope.

(** ** Errors and the outside world *)

Inductive err : Type :=
| ErrNotExist        (* os.Open: the path does not exist (os.IsNotExist) *)
| ErrPermission      (* os.Open: any other open error *)
| ErrWatcherCreate   (* fsnotify.NewWatcher failed *)
| ErrWatcherAdd.     (* watcher.Add(fname) failed *)

(** [os.IsNotExist] *)
Definition IsNotExist (e : err) : bool :=
  match e with ErrNotExist => true | _ => false end.

(** What [os.Open(t.fname)] finds at the path. *)
Inductive fs_entry : Type :=
| FMissing
| FDenied
| FRegular (content : string).

(** What [fsnotify.NewWatcher()] / [watcher.Add(t.fname)] do. *)
Inductive watch_outcome : Type :=
| WatchOk
| NewWatcherFails
| AddFails.

(** One iteration of the retry loop of [openAndWatch] meets this world. *)
Record attempt : Type := mkAttempt {
  at_fs : fs_entry;
  at_watch : watch_outcome
}.

(** ** The [Tail] object *)

Record tail : Type := mkTail {
  Lines : list string;        (* every string sent on t.Lines, in order *)
  reader : option string;     (* t.reader: unread bytes, None when nil *)
  file : option nat;          (* t.file: index into [files] *)
  files : list bool;          (* every handle opened so far: true = open *)
  watcher : option nat;       (* t.watcher: index into [watchers] *)
  watchers : list bool;       (* every watcher created so far: true = live *)
  config_Timeout : Z          (* t.config.Timeout *)
}.

Definition set_Lines l t :=
  mkTail l (reader t) (file t) (files t) (watcher t) (watchers t) (config_Timeout t).
Definition set_reader r t :=
  mkTail (Lines t) r (file t) (files t) (watcher t) (watchers t) (config_Timeout t).
Definition set_file f fs t :=
  mkTail (Lines t) (reader t) f fs (watcher t) (watchers t) (config_Timeout t).
Definition set_watcher w ws t :=
  mkTail (Lines t) (reader t) (file t) (files t) w ws (config_Timeout t).

(** Marks object [i] of a store as closed. *)
Fixpoint close_at (l : list bool) (i : nat) : list bool :=
  match l, i with
  | [], _ => []
  | _ :: l', O => false :: l'
  | b :: l', S i' => b :: close_at l' i'
  end.

(** ** bufio.Reader.ReadString('\n') and strings.TrimRight(line, "\n") *)

Definition nl : ascii := "010"%char.

(** [ReadString('\n')]: the bytes up to and including the first newline,
    the rest, and whether [io.EOF] was hit (then the bytes read so far are
    returned and consumed). *)
Fixpoint ReadString (s : string) : string * string * bool :=
  match s with
  | EmptyString => (EmptyString, EmptyString, true)
  | String c s' =>
      if Ascii.eqb c nl then (String c EmptyString, s', false)
      else let '(line, rest, eof) := ReadString s' in (String c line, rest, eof)
  end.

(** [strings.TrimRight(s, "\n")]: drops the trailing run of newlines. *)
Fixpoint TrimRight_nl (s : string) : string :=
  match s with
  | EmptyString => EmptyString
  | String c s' =>
      let t := TrimRight_nl s' in
      match t with
      | EmptyString => if Ascii.eqb c nl then EmptyString else String c EmptyString
      | _ => String c t
      end
  end.

(** [func (t *Tail) readLines()] *)
Definition readLines (t : tail) : tail :=
  match reader t with
  | None => t
  | Some u =>
      let '(line, rest, eof) := ReadString u in
      if eof then set_reader (Some rest) t
      else set_Lines (Lines t ++ [TrimRight_nl line]) (set_reader (Some rest) t)
  end.

(** A writer appends [w] to the followed file. *)
Definition append_file (w : string) (t : tail) : tail :=
  set_reader (option_map (fun u => u ++ w) (reader t)) t.

(** ** openFile and watchFile *)

(** [func (t *Tail) openFile(newFile bool) (err error)] *)
Definition openFile (newFile : bool) (f : fs_entry) (t : tail) : tail * option err :=
  let t0 := match file t with
            | Some i => set_file (file t) (close_at (files t) i) t
            | None => t
            end in
  match f with
  | FMissing => (set_file None (files t0) t0, Some ErrNotExist)
  | FDenied => (set_file None (files t0) t0, Some ErrPermission)
  | FRegular c =>
      let t1 := set_file (Some (List.length (files t0))) (files t0 ++ [true]) t0 in
      (* Seek(0, 2) unless newFile, then bufio.NewReader(t.file) *)
      (set_reader (Some (if newFile then c else EmptyString)) t1, None)
  end.

(** [func (t *Tail) watchFile(newFile bool) error]; on success the goroutine
    it starts first calls [readLines] once when [newFile]. *)
Definition watchFile (newFile : bool) (w : watch_outcome) (t : tail) : tail * option err :=
  let t0 := match watcher t with
            | Some i => set_watcher (watcher t) (close_at (watchers t) i) t
            | None => t
            end in
  match w with
  | NewWatcherFails => (set_watcher None (watchers t0) t0, Some ErrWatcherCreate)
  | AddFails =>
      (set_watcher (Some (List.length (watchers t0))) (watchers t0 ++ [true]) t0,
       Some ErrWatcherAdd)
  | WatchOk =>
      let t1 := set_watcher (Some (List.length (watchers t0))) (watchers t0 ++ [true]) t0 in
      (if newFile then readLines t1 else t1, None)
  end.

(** ** openAndWatch: the retry loop and the timeout goroutine *)

(** What one run of the retry goroutine did: the value it sent on the
    [timeout] channel (None: it never sent within the modelled attempts),
    the successive values it assigned to the shared [err] variable, the
    [newFile] argument of each [openFile] call, and the final object. *)
Record loop_out : Type := mkLO {
  lo_sent : option (option err);
  lo_assigns : list (option err);
  lo_flags : list bool;
  lo_tail : tail
}.

Definition cons_lo (a : list (option err)) (nf : bool) (o : loop_out) : loop_out :=
  mkLO (lo_sent o) (a ++ lo_assigns o) (nf :: lo_flags o) (lo_tail o).

(** The [for] loop of the first goroutine of [openAndWatch]; attempt [k]
    meets the world [nth k env]. *)
Fixpoint aw_loop (newFile : bool) (env : list attempt) (t : tail) : loop_out :=
  match env with
  | [] => mkLO None [] [] t
  | a :: env' =>
      let '(t1, r1) := openFile newFile (at_fs a) t in
      match r1 with
      | Some e =>
          let newFile' := if IsNotExist e && Bool.eqb newFile false then true else newFile in
          if Z.eqb (config_Timeout t1) 0 then mkLO (Some (Some e)) [Some e] [newFile] t1
          else cons_lo [Some e] newFile (aw_loop newFile' env' t1)
      | None =>
          let '(t2, r2) := watchFile newFile (at_watch a) t1 in
          match r2 with
          | None => mkLO (Some None) [None; None] [newFile] t2
          | Some e => cons_lo [None; Some e] newFile (aw_loop newFile env' t2)
          end
      end
  end.

(** The value of [err] once [k] assignments have happened ([nil] before). *)
Definition err_at (k : nat) (assigns : list (option err)) : option err :=
  last (firstn k assigns) None.

(** [func (t *Tail) openAndWatch() error].  When [t.config.Timeout != 0]
    the sleeping goroutine sends [err] on the channel after [timer_at]
    assignments of [err]; whichever send comes first is the result.
    Result None: the [select] never receives.  The object returned is the
    one after all the attempts of [env], as when the retry goroutine makes
    them before the caller resumes; when the timer decides first, or the
    [select] never receives, the retry goroutine goes on in the code after
    the call (module [Goroutines] below interleaves it with the rest). *)
Definition openAndWatch (env : list attempt) (timer_at : nat) (t : tail)
  : tail * option (option err) :=
  let o := aw_loop false env t in
  let res :=
    if Z.eqb (config_Timeout t) 0 then lo_sent o
    else match lo_sent o with
         | Some v =>
             if Nat.leb (List.length (lo_assigns o)) timer_at then Some v
             else Some (err_at timer_at (lo_assigns o))
         | None => Some (err_at timer_at (lo_assigns o))
         end in
  (lo_tail o, res).

Inductive new_tail_result : Type :=
| NTOk (t : tail)
| NTErr (e : err)
| NTBlocked.

(** The tail object built by [NewTail] before [openAndWatch]. *)
Definition empty_tail (timeout : Z) : tail := mkTail [] None None [] None [] timeout.

(** [func NewTail(fname string, config Config) ( *Tail, error)] *)
Definition NewTail (timeout : Z) (env : list attempt) (timer_at : nat) : new_tail_result :=
  match openAndWatch env timer_at (empty_tail timeout) with
  | (_, Some (Some e)) => NTErr e
  | (t, Some None) => NTOk t
  | (_, None) => NTBlocked
  end.

(** [func (t *Tail) Close()] *)
Definition Close (t : tail) : tail :=
  let t1 := match file t with
            | Some i => set_file (file t) (close_at (files t) i) t
            | None => t
            end in
  match watcher t1 with
  | Some i => set_watcher (watcher t1) (close_at (watchers t1) i) t1
  | None => t1
  end.

(** ** The watcher goroutine *)

(** fsnotify.v1 [Op] bits. *)
Definition Create : Z := 1.
Definition Write : Z := 2.
Definition Remove : Z := 4.
Definition Rename : Z := 8.
Definition Chmod : Z := 16.

(** State of the watcher goroutine (and of the process). *)
Inductive status : Type :=
| Running              (* waiting for the next event *)
| Blocked              (* stuck in a re-open whose select never receives *)
| Exited (e : err)     (* log.Fatalln: the process has exited *)
| Stopped.             (* a watcher channel was closed: the loop broke *)

(** Inputs of a run after [NewTail] returned. *)
Inductive input : Type :=
| IAppend (w : string)                              (* a writer appends w *)
| IEvent (op : Z) (env : list attempt) (timer_at : nat)
    (* an event on watcher.Events; env and timer_at are the world met by
       the re-open it may trigger *)
| IWatchErr (e : option err)                        (* a value on watcher.Errors *)
| IChanClosed                                       (* Events or Errors closed *)
| IClose.                                           (* the consumer calls Close *)

(** The body of the [select] for one event [evt]. *)
Definition handle_event (op : Z) (env : list attempt) (timer_at : nat) (t : tail)
  : tail * status :=
  let after_reopen (t' : tail) :=
    if Z.eqb (Z.land op Write) Write then (readLines t', Running) else (t', Running) in
  if Z.eqb (Z.land op (Z.lor Create (Z.lor Rename Remove))) 0 then after_reopen t
  else match openAndWatch env timer_at t with
       | (t', Some (Some e)) => (t', Exited e)
       | (t', None) => (t', Blocked)
       | (t', Some None) => after_reopen t'
       end.

Definition step (i : input) (t : tail) : tail * status :=
  match i with
  | IAppend w => (append_file w t, Running)
  | IEvent op env k => handle_event op env k t
  | IWatchErr _ => (t, Running)          (* log.Println, keep watching *)
  | IChanClosed => (t, Stopped)
  | IClose => (Close t, Stopped)
  end.

(** Runs the inputs while the goroutine is still waiting for events.  One
    goroutine handles the events, each re-open finishing before the next
    input: the code as long as one watcher goroutine exists, which holds
    until a re-open succeeds; from then on the goroutine that handled the
    event and the one the re-open started both select on [t.watcher]
    (module [Goroutines] below). *)
Fixpoint run (l : list input) (t : tail) : tail * status :=
  match l with
  | [] => (t, Running)
  | i :: l' =>
      let '(t', s) := step i t in
      match s with
      | Running => run l' t'
      | _ => (t', s)
      end
  end.

(** ** Scenarios *)

Definition ok_file (c : string) : attempt := mkAttempt (FRegular c) WatchOk.


Definition nt_run (timeout : Z) (env : list attempt) (timer_at : nat) (l : list input)
  : option (tail * status) :=
  match NewTail timeout env timer_at with
  | NTOk t => Some (run l t)
  | _ => None
  end.

Definition nt_lines (timeout : Z) (env : list attempt) (timer_at : nat) (l : list input)
  : option (list string) :=
  option_map (fun p => Lines (fst p)) (nt_run timeout env timer_at l).

Definition nt_reader (timeout : Z) (env : list attempt) (timer_at : nat) (l : list input)
  : option (option string) :=
  option_map (fun p => reader (fst p)) (nt_run timeout env timer_at l).

(** [s] followed by a newline byte. *)
Definition line (s : string) : string := s ++ String nl EmptyString.

Definition cr : ascii := "013"%char.

(** Whether [s] contains a newline byte. *)
Fixpoint has_nl (s : string) : bool :=
  match s with
  | EmptyString => false
  | String c s' => Ascii.eqb c nl || has_nl s'
  end.

(** ** Resources and lines *)

(** Number of live objects in a store. *)
Definition count_live (l : list bool) : nat := List.length (filter (fun b => b) l).

(** The bytes of the complete lines [ls], each followed by a newline. *)
Fixpoint concat_lines (ls : list string) : string :=
  match ls with
  | [] => EmptyString
  | s :: ls' => s ++ String nl (concat_lines ls')
  end.

(** The event of a plain write to the followed file. *)
Definition write_event : input := IEvent Write [] 0.

(** ** Goroutines

    The model above runs the watcher goroutine as one sequential loop, and a
    call of [openAndWatch] as its whole retry loop, run before the caller
    resumes.  In the code, each successful [watchFile] starts a goroutine of
    its own while the goroutine that called [openAndWatch] goes back to its
    [select], on the new [t.watcher]; and each call of [openAndWatch] runs
    its loop in a goroutine of its own, next to a timer goroutine.  The
    module below interleaves all these goroutines one statement at a time,
    for what the handles and watchers depend on: [t.file], [t.watcher],
    every handle and watcher created, the watchers [Add] succeeded on, the
    locals a call of [openAndWatch] shares with its goroutines, and where
    each goroutine is.  [t.reader] and [t.Lines] are left out: [readLines]
    uses neither [t.file] nor [t.watcher] and returns (the consumer
    receiving the line it sends), so here it is a step that changes nothing.
    The outside world (what [os.Open] finds, whether [NewWatcher] and [Add]
    succeed, which event the kernel reports) is chosen at the step that
    meets it. *)

Module Goroutines.

(** The locals of one call of [openAndWatch]: [err], [newFile] and the
    one-slot buffer of the [timeout] channel. *)
Record frame : Type := mkFrame {
  fr_err : option err;
  fr_newFile : bool;
  fr_timeout : option (option err)
}.

(** The caller of [NewTail], then of [Close]. *)
Inductive main_pc : Type :=
| MNewTail                 (* about to call NewTail *)
| MWait (k : nat)          (* in the select of openAndWatch call k *)
| MFailed (e : err)        (* NewTail returned the error e *)
| MOk                      (* NewTail returned the Tail *)
| MCloseWatcher            (* Close: t.file.Close() done *)
| MClosed.                 (* Close returned *)

(** The goroutine started by [watchFile]. *)
Inductive watch_pc : Type :=
| WStart (newFile : bool)  (* if newFile { t.readLines() } *)
| WLoop                    (* top of the for loop: the select reads t.watcher *)
| WSelect (w : nat)        (* blocked in the select on watcher w's channels *)
| WEvent (op : Z)          (* received evt *)
| WReopen (op : Z) (k : nat). (* in the select of openAndWatch call k *)

(** The first goroutine of [openAndWatch], with [openFile] and [watchFile]
    inlined. *)
Inductive retry_pc : Type :=
| RTop                          (* err = t.openFile(newFile) *)
| ROpenClose (newFile : bool)   (* if t.file != nil { t.file.Close() } *)
| ROpen (newFile : bool)        (* t.file, err = os.Open(t.fname) *)
| RSeek (newFile : bool)        (* if !newFile { Seek(0, 2) }; t.reader = ... *)
| ROpenDone (r : option err)    (* openFile returned r: err = r; if err != nil ... *)
| RWatchClose (newFile : bool)  (* if t.watcher != nil { t.watcher.Close() } *)
| RWatchNew (newFile : bool)    (* t.watcher, err = fsnotify.NewWatcher() *)
| RWatchAdd (newFile : bool)    (* err = t.watcher.Add(t.fname) *)
| RWatchGo (newFile : bool)     (* go func() { ... }() *)
| RWatchDone (r : option err)   (* watchFile returned r: err = r; if err == nil ... *)
| RSend (v : option err).       (* timeout <- v; break *)

Inductive thread : Type :=
| Main (pc : main_pc)
| Watch (pc : watch_pc)
| Retry (k : nat) (pc : retry_pc)            (* for openAndWatch call k *)
| Timer (k : nat) (v : option (option err))  (* asleep (None), or sending v *)
| Done.

Inductive proc : Type :=
| PRunning
| PExited (e : err)        (* log.Fatalln *)
| PPanicked.               (* nil pointer dereference *)

Record cstate : Type := mkC {
  c_file : option nat;          (* t.file: index into c_files *)
  c_files : list bool;          (* every handle opened: true = open *)
  c_watcher : option nat;       (* t.watcher: index into c_watchers *)
  c_watchers : list bool;       (* every watcher created: true = live *)
  c_added : list nat;           (* the watchers Add(t.fname) succeeded on *)
  c_timeout : Z;                (* t.config.Timeout *)
  c_frames : list frame;        (* one per call of openAndWatch *)
  c_threads : list thread;      (* every goroutine started *)
  c_proc : proc
}.

(** What the outside world does at a step. *)
Inductive world : Type :=
| Sched                    (* nothing: the goroutine runs its next statement *)
| Finds (f : fs_entry)     (* os.Open finds f *)
| Succeeds                 (* NewWatcher or Add succeeds *)
| Fails                    (* NewWatcher or Add fails *)
| Event (op : Z)           (* the watcher sends an event on Events *)
| WatchError.              (* the watcher sends an error on Errors *)

Fixpoint set_nth {A : Type} (l : list A) (n : nat) (x : A) : list A :=
  match l, n with
  | [], _ => []
  | _ :: l', O => x :: l'
  | y :: l', S n' => y :: set_nth l' n' x
  end.

Definition with_file f fs s :=
  mkC f fs (c_watcher s) (c_watchers s) (c_added s) (c_timeout s) (c_frames s) (c_threads s) (c_proc s).
Definition with_watcher w ws s :=
  mkC (c_file s) (c_files s) w ws (c_added s) (c_timeout s) (c_frames s) (c_threads s) (c_proc s).
Definition with_added ad s :=
  mkC (c_file s) (c_files s) (c_watcher s) (c_watchers s) ad (c_timeout s) (c_frames s) (c_threads s) (c_proc s).
Definition with_frames frs s :=
  mkC (c_file s) (c_files s) (c_watcher s) (c_watchers s) (c_added s) (c_timeout s) frs (c_threads s) (c_proc s).
Definition with_threads ths s :=
  mkC (c_file s) (c_files s) (c_watcher s) (c_watchers s) (c_added s) (c_timeout s) (c_frames s) ths (c_proc s).
Definition with_proc p s :=
  mkC (c_file s) (c_files s) (c_watcher s) (c_watchers s) (c_added s) (c_timeout s) (c_frames s) (c_threads s) p.

Definition is_live (l : list bool) (i : nat) : bool :=
  match nth_error l i with Some b => b | None => false end.

(** [if t.file != nil { t.file.Close() }] (closing a nil [*os.File] or a
    closed one does nothing either). *)
Definition close_file (s : cstate) : cstate :=
  match c_file s with
  | Some i => with_file (c_file s) (close_at (c_files s) i) s
  | None => s
  end.

(** [if t.watcher != nil { t.watcher.Close() }] *)
Definition close_watcher (s : cstate) : cstate :=
  match c_watcher s with
  | Some i => with_watcher (c_watcher s) (close_at (c_watchers s) i) s
  | None => s
  end.

Definition spawn (th : thread) (s : cstate) : cstate := with_threads (c_threads s ++ [th]) s.

(** The first statements of [openAndWatch]: its locals, [go func() {...}()]
    and, when [t.config.Timeout != 0], the timer goroutine. *)
Definition call_openAndWatch (s : cstate) : nat * cstate :=
  let k := List.length (c_frames s) in
  (k, with_threads (c_threads s ++ Retry k RTop
                      :: (if Z.eqb (c_timeout s) 0 then [] else [Timer k None]))
                   (with_frames (c_frames s ++ [mkFrame None false None]) s)).

(** [<-timeout] of call [k]: blocks while the buffer is empty. *)
Definition receive (k : nat) (s : cstate) : option (option err * cstate) :=
  match nth_error (c_frames s) k with
  | Some (mkFrame e nf (Some v)) => Some (v, with_frames (set_nth (c_frames s) k (mkFrame e nf None)) s)
  | _ => None
  end.

(** [timeout <- v] of call [k]: blocks while the buffer is full. *)
Definition send (k : nat) (v : option err) (s : cstate) : option cstate :=
  match nth_error (c_frames s) k with
  | Some (mkFrame e nf None) => Some (with_frames (set_nth (c_frames s) k (mkFrame e nf (Some v))) s)
  | _ => None
  end.

(** Sets [err] of call [k], and [newFile] to [nf]. *)
Definition assign_err (k : nat) (r : option err) (nf : bool) (s : cstate) : cstate :=
  match nth_error (c_frames s) k with
  | Some f => with_frames (set_nth (c_frames s) k (mkFrame r nf (fr_timeout f))) s
  | None => s
  end.

(** One statement of goroutine [th] meeting the world [w]; None when [th]
    cannot take such a step (it is blocked, or [w] is not what it meets). *)
Definition tstep (th : thread) (w : world) (s : cstate) : option (thread * cstate) :=
  match th, w with
  (* NewTail: err := tail.openAndWatch() *)
  | Main MNewTail, Sched =>
      let '(k, s1) := call_openAndWatch s in Some (Main (MWait k), s1)
  | Main (MWait k), Sched =>
      match receive k s with
      | Some (Some e, s1) => Some (Main (MFailed e), s1)
      | Some (None, s1) => Some (Main MOk, s1)
      | None => None
      end
  (* Close *)
  | Main MOk, Sched => Some (Main MCloseWatcher, close_file s)
  | Main MCloseWatcher, Sched => Some (Main MClosed, close_watcher s)
  (* the goroutine of watchFile *)
  | Watch (WStart _), Sched => Some (Watch WLoop, s)
  | Watch WLoop, Sched =>
      match c_watcher s with
      | Some i => Some (Watch (WSelect i), s)
      | None => Some (Done, with_proc PPanicked s)
      end
  | Watch (WSelect i), Event op =>
      if is_live (c_watchers s) i && existsb (Nat.eqb i) (c_added s)
      then Some (Watch (WEvent op), s) else None
  | Watch (WSelect i), WatchError =>          (* log.Println *)
      if is_live (c_watchers s) i && existsb (Nat.eqb i) (c_added s)
      then Some (Watch WLoop, s) else None
  | Watch (WSelect i), Sched =>               (* closed channel: closed = true; break *)
      if is_live (c_watchers s) i then None else Some (Done, s)
  | Watch (WEvent op), Sched =>
      if Z.eqb (Z.land op (Z.lor Create (Z.lor Rename Remove))) 0
      then Some (Watch WLoop, s)               (* then t.readLines() if the Write bit is set *)
      else let '(k, s1) := call_openAndWatch s in Some (Watch (WReopen op k), s1)
  | Watch (WReopen op k), Sched =>
      match receive k s with
      | Some (Some e, s1) => Some (Done, with_proc (PExited e) s1)
      | Some (None, s1) => Some (Watch WLoop, s1)  (* then t.readLines() if the Write bit is set *)
      | None => None
      end
  (* the retry goroutine of openAndWatch call k *)
  | Retry k RTop, Sched =>
      match nth_error (c_frames s) k with
      | Some f => Some (Retry k (ROpenClose (fr_newFile f)), s)
      | None => None
      end
  | Retry k (ROpenClose nf), Sched => Some (Retry k (ROpen nf), close_file s)
  | Retry k (ROpen nf), Finds FMissing =>
      Some (Retry k (ROpenDone (Some ErrNotExist)), with_file None (c_files s) s)
  | Retry k (ROpen nf), Finds FDenied =>
      Some (Retry k (ROpenDone (Some ErrPermission)), with_file None (c_files s) s)
  | Retry k (ROpen nf), Finds (FRegular _) =>
      Some (Retry k (RSeek nf), with_file (Some (List.length (c_files s))) (c_files s ++ [true]) s)
  | Retry k (RSeek nf), Sched =>
      (* Seek on a nil or closed t.file returns an error *)
      let ok := match c_file s with Some i => is_live (c_files s) i | None => false end in
      Some (Retry k (ROpenDone (if nf || ok then None else Some ErrPermission)), s)
  | Retry k (ROpenDone r), Sched =>
      match nth_error (c_frames s) k, r with
      | Some f, Some e =>
          let nf := if IsNotExist e && Bool.eqb (fr_newFile f) false then true else fr_newFile f in
          let s1 := assign_err k (Some e) nf s in
          if Z.eqb (c_timeout s) 0 then Some (Retry k (RSend (Some e)), s1)
          else Some (Retry k RTop, s1)
      | Some f, None => Some (Retry k (RWatchClose (fr_newFile f)), assign_err k None (fr_newFile f) s)
      | None, _ => None
      end
  | Retry k (RWatchClose nf), Sched => Some (Retry k (RWatchNew nf), close_watcher s)
  | Retry k (RWatchNew nf), Succeeds =>
      Some (Retry k (RWatchAdd nf),
            with_watcher (Some (List.length (c_watchers s))) (c_watchers s ++ [true]) s)
  | Retry k (RWatchNew nf), Fails =>
      Some (Retry k (RWatchDone (Some ErrWatcherCreate)), with_watcher None (c_watchers s) s)
  | Retry k (RWatchAdd nf), _ =>
      match c_watcher s, w with
      | None, Sched => Some (Done, with_proc PPanicked s)
      | Some i, Succeeds =>
          if is_live (c_watchers s) i
          then Some (Retry k (RWatchGo nf), with_added (c_added s ++ [i]) s) else None
      | Some _, Fails => Some (Retry k (RWatchDone (Some ErrWatcherAdd)), s)
      | _, _ => None
      end
  | Retry k (RWatchGo nf), Sched => Some (Retry k (RWatchDone None), spawn (Watch (WStart nf)) s)
  | Retry k (RWatchDone r), Sched =>
      match nth_error (c_frames s) k, r with
      | Some f, None => Some (Retry k (RSend None), assign_err k None (fr_newFile f) s)
      | Some f, Some e => Some (Retry k RTop, assign_err k (Some e) (fr_newFile f) s)
      | None, _ => None
      end
  | Retry k (RSend v), Sched => option_map (fun s1 => (Done, s1)) (send k v s)
  (* the timer goroutine: time.Sleep(...); timeout <- err *)
  | Timer k None, Sched =>
      match nth_error (c_frames s) k with
      | Some f => Some (Timer k (Some (fr_err f)), s)
      | None => None
      end
  | Timer k (Some v), Sched => option_map (fun s1 => (Done, s1)) (send k v s)
  | _, _ => None
  end.

(** Goroutine [n] takes a step, while the process runs. *)
Definition cstep (n : nat) (w : world) (s : cstate) : option cstate :=
  match c_proc s, nth_error (c_threads s) n with
  | PRunning, Some th =>
      match tstep th w s with
      | Some (th', s1) => Some (with_threads (set_nth (c_threads s1) n th') s1)
      | None => None
      end
  | _, _ => None
  end.

Fixpoint exec (l : list (nat * world)) (s : cstate) : option cstate :=
  match l with
  | [] => Some s
  | (n, w) :: l' => match cstep n w s with Some s1 => exec l' s1 | None => None end
  end.

(** The program about to call [NewTail]. *)
Definition init (timeout : Z) : cstate := mkC None [] None [] [] timeout [] [Main MNewTail] PRunning.

(** [NewTail] with [Timeout == 0] on an existing file; a rotation (a Rename
    event whose re-open finds the new file); then the new file is renamed
    twice in a row, and each of the two goroutines now selecting on the new
    watcher takes one of the two Rename events; their re-opens, which find a
    file at the path again, run side by side. *)
Definition overlapping_reopens : list (nat * world) :=
  [ (0, Sched);
    (1, Sched); (1, Sched); (1, Finds (FRegular "")); (1, Sched); (1, Sched);
    (1, Sched); (1, Succeeds); (1, Succeeds); (1, Sched); (1, Sched); (1, Sched);
    (0, Sched);
    (2, Sched); (2, Sched); (2, Event Rename); (2, Sched);
    (3, Sched); (3, Sched); (3, Finds (FRegular "")); (3, Sched); (3, Sched);
    (3, Sched); (3, Succeeds); (3, Succeeds); (3, Sched); (3, Sched); (3, Sched);
    (2, Sched); (2, Sched);
    (4, Sched); (4, Sched);
    (2, Event Rename); (4, Event Rename);
    (2, Sched); (4, Sched);
    (5, Sched); (5, Sched);
    (6, Sched); (6, Sched);
    (5, Finds (FRegular "")); (6, Finds (FRegular ""));
    (5, Sched); (6, Sched);
    (5, Sched); (6, Sched);
    (5, Sched); (6, Sched);
    (5, Succeeds); (6, Succeeds) ].

(** How one statement can change [t.watcher] and the watchers: not at all,
    closing the one [t.watcher] holds, setting [t.watcher] to nil, or
    installing a new live one. *)
Definition watchers_step (s s' : cstate) : Prop :=
  (c_watcher s' = c_watcher s /\ c_watchers s' = c_watchers s) \/
  (c_watcher s' = c_watcher s /\
     exists j, c_watcher s = Some j /\ c_watchers s' = close_at (c_watchers s) j) \/
  (c_watcher s' = None /\ c_watchers s' = c_watchers s) \/
  (c_watcher s' = Some (List.length (c_watchers s)) /\ c_watchers s' = app (c_watchers s) [true]).

End Goroutines.

Import Goroutines.

(** ** Properties of the line reader *)

Lemma ReadString_crlf (s r : string) :
  has_nl s = false ->
  ReadString (s ++ String cr (String nl r))
  = (s ++ String cr (String nl EmptyString), r, false).
Proof.
  induction s as [|c s IH]; simpl; intros H.
  - reflexivity.
  - apply orb_false_iff in H as [Hc Hs].
    rewrite Hc, (IH Hs). reflexivity.
Qed.

Lemma TrimRight_nl_cr (s : string) :
  TrimRight_nl (s ++ String cr (String nl EmptyString)) = s ++ String cr EmptyString.
Proof.
  induction s as [|c s IH]; simpl.
  - reflexivity.
  - rewrite IH. destruct s; reflexivity.
Qed.

(** ** Theorems *)

(** C10: only the newline byte is stripped from an emitted line: a line
    that ends in "\r\n" in the file is sent on [t.Lines] with its trailing
    carriage return, and the reader keeps the bytes after the newline. *)
Theorem C10_crlf_keeps_cr (s r : string) (t : tail) :
  has_nl s = false ->
  reader t = Some (s ++ String cr (String nl r)) ->
  Lines (readLines t) = app (Lines t) [s ++ String cr EmptyString] /\
  reader (readLines t) = Some r.
Proof.
  intros Hs Hr. unfold readLines. rewrite Hr, ReadString_crlf by exact Hs.
  rewrite TrimRight_nl_cr. split; reflexivity.
Qed.

Lemma C10_crlf_keeps_cr_witness :
  has_nl "abc" = false /\
  reader (set_reader (Some ("abc" ++ String cr (String nl "x"))) (empty_tail 1))
    = Some ("abc" ++ String cr (String nl "x")) /\
  Lines (readLines (set_reader (Some ("abc" ++ String cr (String nl "x"))) (empty_tail 1)))
    = app [] ["abc" ++ String cr EmptyString].
Proof.
  split; [reflexivity|]. split; [reflexivity|].
  exact (proj1 (C10_crlf_keeps_cr "abc" "x" (set_reader (Some ("abc" ++ String cr (String nl "x"))) (empty_tail 1)) eq_refl eq_refl)).
Defined.

(** C7 (refuted): a partial line read at [io.EOF] is dropped.  Following a
    pre-existing file, the writer appends "foo" and a Write event arrives:
    [readLines] consumes "foo", nothing is sent, and the reader holds no
    bytes any more. *)
Theorem C7_partial_line_dropped :
  nt_run 10 [ok_file "old"] 5 [IAppend "foo"; IEvent Write [] 0]
  = Some (mkTail [] (Some "") (Some 0) [true] (Some 0) [true] 10, Running).
Proof. reflexivity. Qed.

(** C6 (refuted in part): appending "foobar\n" to a followed pre-existing
    file sends exactly "foobar"; but when the line arrives in two writes
    "foo" and "bar\n", each with its Write event, the string sent is "bar",
    not the line "foobar" of the file. *)
Theorem C6_foobar_and_split_line :
  nt_lines 10 [ok_file "old"] 5 [IAppend (line "foobar"); IEvent Write [] 0] = Some ["foobar"] /\
  nt_lines 10 [ok_file "old"] 5
    [IAppend "foo"; IEvent Write [] 0; IAppend (line "bar"); IEvent Write [] 0] = Some ["bar"].
Proof. split; reflexivity. Qed.

(** C2 (refuted): one append of two lines with a single Write event sends
    only the first line; the second stays in the reader and, with no
    further event, is never sent. *)
Theorem C2_one_line_per_write_event :
  nt_run 10 [ok_file "old"] 5 [IAppend (line "a" ++ line "b"); IEvent Write [] 0]
  = Some (mkTail ["a"] (Some (line "b")) (Some 0) [true] (Some 0) [true] 10, Running).
Proof. reflexivity. Qed.

(** C1: a successful [openFile false] seeks to the end (the reader holds
    nothing of the existing content) and [openFile true] starts at offset 0;
    but for a fresh file holding two lines only the first is sent by the
    initial read of the watcher goroutine. *)
Theorem C1_fresh_file_first_line_only :
  (forall c t, reader (fst (openFile false (FRegular c) t)) = Some EmptyString /\
               reader (fst (openFile true (FRegular c) t)) = Some c) /\
  nt_run 10 [mkAttempt FMissing WatchOk; ok_file (line "a" ++ line "b")] 5 []
  = Some (mkTail ["a"] (Some (line "b")) (Some 0) [true] (Some 0) [true] 10, Running).
Proof. split; [intros c t; split; reflexivity | reflexivity]. Qed.

(** ** The retry loop *)

Lemma openFile_timeout (nf : bool) (f : fs_entry) (t : tail) :
  config_Timeout (fst (openFile nf f t)) = config_Timeout t.
Proof. unfold openFile. destruct (file t), f; reflexivity. Qed.

Lemma readLines_timeout (t : tail) : config_Timeout (readLines t) = config_Timeout t.
Proof.
  unfold readLines. destruct (reader t) as [u|]; [|reflexivity].
  destruct (ReadString u) as [[l r] []]; reflexivity.
Qed.

Lemma watchFile_timeout (nf : bool) (w : watch_outcome) (t : tail) :
  config_Timeout (fst (watchFile nf w t)) = config_Timeout t.
Proof.
  unfold watchFile. destruct (watcher t), w, nf; simpl;
    try rewrite readLines_timeout; reflexivity.
Qed.

(** With [Timeout == 0], [NewTail] keeps retrying as long as [Add] fails. *)
Lemma aw_loop_add_fails (n : nat) (nf : bool) (t : tail) :
  config_Timeout t = 0%Z ->
  lo_sent (aw_loop nf (repeat (mkAttempt (FRegular "") AddFails) n) t) = None.
Proof.
  revert t. induction n as [|n IH]; intros t Ht; [reflexivity|].
  cbn [repeat aw_loop at_fs at_watch].
  destruct (openFile nf (FRegular "") t) as [t1 r1] eqn:E1.
  assert (r1 = None) as -> by (change r1 with (snd (t1, r1)); rewrite <- E1; reflexivity).
  destruct (watchFile nf AddFails t1) as [t2 r2] eqn:E2.
  assert (r2 = Some ErrWatcherAdd) as ->
    by (change r2 with (snd (t2, r2)); rewrite <- E2; unfold watchFile;
        destruct (watcher t1); reflexivity).
  apply IH.
  change t2 with (fst (t2, Some ErrWatcherAdd)). rewrite <- E2, watchFile_timeout.
  change t1 with (fst (t1, @None err)). rewrite <- E1, openFile_timeout. exact Ht.
Qed.

(** C3 (refuted): with [Timeout == 0] a missing file makes [NewTail] fail at
    once with a not-found error, but a failure of the watch step is retried:
    [NewTail] succeeds on the second attempt, and never returns while [Add]
    keeps failing. *)
Theorem C3_watch_failure_retried :
  (forall w env j, NewTail 0 (mkAttempt FMissing w :: env) j = NTErr ErrNotExist) /\
  NewTail 0 [mkAttempt (FRegular "") AddFails; ok_file ""] 0
  = NTOk (mkTail [] (Some "") (Some 1) [false; true] (Some 1) [false; true] 0) /\
  (forall n j, NewTail 0 (repeat (mkAttempt (FRegular "") AddFails) n) j = NTBlocked).
Proof.
  split; [reflexivity|]. split; [reflexivity|].
  intros n j. unfold NewTail, openAndWatch. simpl.
  rewrite aw_loop_add_fails by reflexivity. reflexivity.
Qed.


Lemma openFile_regular_ok (nf : bool) (c : string) (t : tail) :
  snd (openFile nf (FRegular c) t) = None.
Proof. unfold openFile. destruct (file t); reflexivity. Qed.

Lemma watchFile_ok (nf : bool) (t : tail) : snd (watchFile nf WatchOk t) = None.
Proof. unfold watchFile. destruct (watcher t), nf; reflexivity. Qed.

Lemma watchFile_newFile (t : tail) :
  fst (watchFile true WatchOk t) = readLines (fst (watchFile false WatchOk t)).
Proof. unfold watchFile. destruct (watcher t); reflexivity. Qed.

Lemma openFile_missing_no_file (nf : bool) (t : tail) :
  file t = None -> openFile nf FMissing t = (t, Some ErrNotExist).
Proof. destruct t as [L r f fs w ws c]; simpl; intros ->. reflexivity. Qed.

Lemma openFile_missing_file (nf : bool) (t : tail) : file (fst (openFile nf FMissing t)) = None.
Proof. unfold openFile. destruct (file t); reflexivity. Qed.

Lemma openFile_Lines (nf : bool) (f : fs_entry) (t : tail) :
  Lines (fst (openFile nf f t)) = Lines t.
Proof. unfold openFile. destruct (file t), f; reflexivity. Qed.

Lemma watchFile_false_fields (t : tail) :
  Lines (fst (watchFile false WatchOk t)) = Lines t /\
  reader (fst (watchFile false WatchOk t)) = reader t.
Proof. unfold watchFile. destruct (watcher t); split; reflexivity. Qed.

(** An attempt whose open and watch succeed ends the loop. *)
Lemma aw_loop_ok_first (nf : bool) (c : string) (rest : list attempt) (t : tail) :
  aw_loop nf (ok_file c :: rest) t
  = mkLO (Some None) [None; None] [nf]
         (fst (watchFile nf WatchOk (fst (openFile nf (FRegular c) t)))).
Proof.
  cbn [aw_loop ok_file at_fs at_watch].
  pose proof (openFile_regular_ok nf c t) as H1.
  destruct (openFile nf (FRegular c) t) as [t1 r1]. simpl in H1. subst r1. cbn [fst].
  pose proof (watchFile_ok nf t1) as H2.
  destruct (watchFile nf WatchOk t1) as [t2 r2]. simpl in H2. subst r2. reflexivity.
Qed.

Lemma openFile_missing (nf : bool) (t : tail) :
  snd (openFile nf FMissing t) = Some ErrNotExist.
Proof. unfold openFile. destruct (file t); reflexivity. Qed.






(** Once [newFile] is true it stays true for the rest of the loop. *)
Lemma aw_loop_flags_true (env : list attempt) (t : tail) (x : bool) :
  In x (lo_flags (aw_loop true env t)) -> x = true.
Proof.
  revert t. induction env as [|a env IH]; intros t Hx; [destruct Hx|].
  cbn [aw_loop] in Hx.
  destruct (openFile true (at_fs a) t) as [t1 [e|]].
  - destruct (Z.eqb (config_Timeout t1) 0).
    + destruct Hx as [<-|[]]. reflexivity.
    + destruct Hx as [<-|Hx]; [reflexivity|].
      rewrite andb_false_r in Hx. exact (IH _ Hx).
  - destruct (watchFile true (at_watch a) t1) as [t2 [e2|]].
    + destruct Hx as [<-|Hx]; [reflexivity|]. exact (IH _ Hx).
    + destruct Hx as [<-|[]]. reflexivity.
Qed.

(** C8: when the open of attempt [i] fails because the file does not exist,
    every later attempt [j] of the same loop calls [openFile] with
    [newFile = true], and such an open reads the file from offset 0. *)
Theorem C8_not_found_sets_newFile (env : list attempt) (t : tail) (nf : bool)
  (i j : nat) (a : attempt) (b : bool) :
  nth_error env i = Some a ->
  at_fs a = FMissing ->
  (i < j)%nat ->
  nth_error (lo_flags (aw_loop nf env t)) j = Some b ->
  b = true /\ (forall c t', reader (fst (openFile b (FRegular c) t')) = Some c).
Proof.
  intros Hi Ha Hij Hj.
  enough (b = true) as -> by (split; [reflexivity|intros; reflexivity]).
  revert t nf i j Hi Hij Hj.
  induction env as [|a0 env IH]; intros t nf i j Hi Hij Hj.
  - destruct i; discriminate.
  - destruct j as [|j]; [lia|].
    cbn [aw_loop] in Hj.
    destruct i as [|i].
    + injection Hi as <-. rewrite Ha in Hj.
      destruct (openFile nf FMissing t) as [t1 r1] eqn:E1.
      assert (r1 = Some ErrNotExist) as ->
        by (change r1 with (snd (t1, r1)); rewrite <- E1; apply openFile_missing).
      destruct (Z.eqb (config_Timeout t1) 0).
      * destruct j; discriminate.
      * cbn [cons_lo lo_flags nth_error] in Hj.
        apply aw_loop_flags_true with (env := env) (t := t1).
        destruct nf; eapply nth_error_In; exact Hj.
    + destruct (openFile nf (at_fs a0) t) as [t1 [e|]].
      * destruct (Z.eqb (config_Timeout t1) 0).
        -- destruct j; discriminate.
        -- cbn [cons_lo lo_flags nth_error] in Hj.
           eapply IH; [exact Hi| |exact Hj]. lia.
      * destruct (watchFile nf (at_watch a0) t1) as [t2 [e2|]].
        -- cbn [cons_lo lo_flags nth_error] in Hj.
           eapply IH; [exact Hi| |exact Hj]. lia.
        -- destruct j; discriminate.
Qed.

Lemma C8_not_found_sets_newFile_witness :
  nth_error [mkAttempt FMissing WatchOk; ok_file ""] 0 = Some (mkAttempt FMissing WatchOk) /\
  nth_error (lo_flags (aw_loop false [mkAttempt FMissing WatchOk; ok_file ""] (empty_tail 5))) 1
    = Some true /\
  true = true.
Proof.
  split; [reflexivity|]. split; [reflexivity|].
  exact (proj1 (C8_not_found_sets_newFile [mkAttempt FMissing WatchOk; ok_file ""]
                  (empty_tail 5) false 0 1 (mkAttempt FMissing WatchOk) true
                  eq_refl eq_refl (le_n 1) eq_refl)).
Defined.

(** ** Events *)

(** C5 (refuted): following a file with [Timeout == 0], a Remove event whose
    re-open finds no file ends the process through [log.Fatalln]. *)
Theorem C5_remove_kills_process :
  option_map snd (nt_run 0 [ok_file ""] 0 [IEvent Remove [mkAttempt FMissing WatchOk] 0])
  = Some (Exited ErrNotExist).
Proof. reflexivity. Qed.

(** C5 (amended): for an event with a Create, Rename or Remove bit, when the
    re-open ([openAndWatch]) returns an error [e], the watcher goroutine
    calls [log.Fatalln] and the process exits with [e]; no error value is
    handed to the consumer. *)
Theorem C5_reopen_failure_exits (op : Z) (env : list attempt) (j : nat) (t : tail) (e : err) :
  Z.land op (Z.lor Create (Z.lor Rename Remove)) <> 0%Z ->
  snd (openAndWatch env j t) = Some (Some e) ->
  handle_event op env j t = (fst (openAndWatch env j t), Exited e).
Proof.
  intros Hop Hr. unfold handle_event.
  apply Z.eqb_neq in Hop. rewrite Hop.
  destruct (openAndWatch env j t) as [t' r]. simpl in Hr. subst r. reflexivity.
Qed.

Lemma C5_reopen_failure_exits_witness :
  Z.land Remove (Z.lor Create (Z.lor Rename Remove)) <> 0%Z /\
  snd (openAndWatch [mkAttempt FMissing WatchOk] 0 (empty_tail 0)) = Some (Some ErrNotExist) /\
  handle_event Remove [mkAttempt FMissing WatchOk] 0 (empty_tail 0)
  = (fst (openAndWatch [mkAttempt FMissing WatchOk] 0 (empty_tail 0)), Exited ErrNotExist).
Proof.
  split; [discriminate|]. split; [reflexivity|].
  apply C5_reopen_failure_exits; [discriminate|reflexivity].
Defined.

(** ** Stores *)

Lemma nth_close_at (l : list bool) (i k : nat) :
  nth_error (close_at l i) k
  = if Nat.eqb k i then option_map (fun _ => false) (nth_error l k) else nth_error l k.
Proof.
  revert i k. induction l as [|b l IH]; intros [|i] [|k]; simpl;
    try apply IH; try (destruct (Nat.eqb _ _)); reflexivity.
Qed.

(** ** Further properties of the code *)

Lemma string_app_assoc (a b c : string) : (a ++ b) ++ c = a ++ (b ++ c).
Proof. induction a as [|x a IH]; simpl; [reflexivity|]. rewrite IH. reflexivity. Qed.

Lemma concat_lines_app (l1 l2 : list string) :
  concat_lines l1 ++ concat_lines l2 = concat_lines (l1 ++ l2).
Proof.
  induction l1 as [|s l1 IH]; simpl; [reflexivity|].
  rewrite string_app_assoc. simpl. rewrite IH. reflexivity.
Qed.

Lemma ReadString_nl (s r : string) :
  has_nl s = false -> ReadString (s ++ String nl r) = (s ++ String nl EmptyString, r, false).
Proof.
  induction s as [|c s IH]; simpl; intros H; [reflexivity|].
  apply orb_false_iff in H as [Hc Hs]. rewrite Hc, (IH Hs). reflexivity.
Qed.

Lemma TrimRight_nl_line (s : string) :
  has_nl s = false -> TrimRight_nl (s ++ String nl EmptyString) = s.
Proof.
  induction s as [|c s IH]; simpl; intros H; [reflexivity|].
  apply orb_false_iff in H as [Hc Hs]. rewrite (IH Hs).
  destruct s; [rewrite Hc|]; reflexivity.
Qed.

Lemma ReadString_no_line (u : string) :
  has_nl u = false -> ReadString u = (u, EmptyString, true).
Proof.
  induction u as [|c u IH]; simpl; intros H; [reflexivity|].
  apply orb_false_iff in H as [Hc Hu]. rewrite Hc, (IH Hu). reflexivity.
Qed.

(** Every string either has no newline or splits at its first newline. *)
Lemma split_first_nl (u : string) :
  has_nl u = false \/ exists s r, has_nl s = false /\ u = s ++ String nl r.
Proof.
  induction u as [|c u IH]; [left; reflexivity|].
  destruct (Ascii.eqb c nl) eqn:Hc.
  - right. exists EmptyString, u. apply Ascii.eqb_eq in Hc. subst c. split; reflexivity.
  - destruct IH as [Hu|(s & r & Hs & ->)].
    + left. simpl. rewrite Hc, Hu. reflexivity.
    + right. exists (String c s), r. simpl. rewrite Hc, Hs. split; reflexivity.
Qed.

(** X1: when the unread bytes start with a complete line [s], [readLines]
    sends [s] without its newline and keeps the bytes after it. *)
Theorem readLines_complete_line (s r : string) (t : tail) :
  has_nl s = false ->
  reader t = Some (s ++ String nl r) ->
  readLines t = set_Lines (app (Lines t) [s]) (set_reader (Some r) t).
Proof.
  intros Hs Hr. unfold readLines. rewrite Hr, (ReadString_nl s r Hs).
  rewrite (TrimRight_nl_line s Hs). reflexivity.
Qed.

Lemma readLines_complete_line_witness :
  has_nl "ab" = false /\
  reader (set_reader (Some ("ab" ++ String nl "c")) (empty_tail 1)) = Some ("ab" ++ String nl "c") /\
  readLines (set_reader (Some ("ab" ++ String nl "c")) (empty_tail 1))
  = set_Lines (app (Lines (set_reader (Some ("ab" ++ String nl "c")) (empty_tail 1))) ["ab"])
      (set_reader (Some "c") (set_reader (Some ("ab" ++ String nl "c")) (empty_tail 1))).
Proof.
  split; [reflexivity|]. split; [reflexivity|].
  apply readLines_complete_line; reflexivity.
Defined.

(** X2: when the unread bytes hold no newline, [readLines] sends nothing
    and the reader is left with no unread bytes: the partial line is lost. *)
Theorem readLines_partial_line_lost (u : string) (t : tail) :
  has_nl u = false ->
  reader t = Some u ->
  readLines t = set_reader (Some EmptyString) t.
Proof. intros Hu Hr. unfold readLines. rewrite Hr, (ReadString_no_line u Hu). reflexivity. Qed.

Lemma readLines_partial_line_lost_witness :
  has_nl "foo" = false /\
  reader (set_reader (Some "foo") (empty_tail 1)) = Some "foo" /\
  readLines (set_reader (Some "foo") (empty_tail 1))
  = set_reader (Some EmptyString) (set_reader (Some "foo") (empty_tail 1)).
Proof.
  split; [reflexivity|]. split; [reflexivity|].
  apply (readLines_partial_line_lost "foo"); reflexivity.
Defined.

(** X3: one call of [readLines] sends at most one string, appended after the
    ones already sent, and that string holds no newline byte. *)
Theorem readLines_at_most_one_line (t : tail) :
  Lines (readLines t) = Lines t \/
  exists x, has_nl x = false /\ Lines (readLines t) = app (Lines t) [x].
Proof.
  destruct (reader t) as [u|] eqn:Hr.
  - destruct (split_first_nl u) as [Hu|(s & r & Hs & ->)].
    + left. rewrite (readLines_partial_line_lost u t Hu Hr). reflexivity.
    + right. exists s. split; [exact Hs|].
      rewrite (readLines_complete_line s r t Hs Hr). reflexivity.
  - left. unfold readLines. rewrite Hr. reflexivity.
Qed.

Lemma handle_write (env : list attempt) (j : nat) (t : tail) :
  handle_event Write env j t = (readLines t, Running).
Proof. reflexivity. Qed.

(** Write events drain the buffered complete lines one per event. *)
Lemma run_write_events (n : nat) (ls : list string) (t : tail) :
  Forall (fun s => has_nl s = false) ls ->
  reader t = Some (concat_lines ls) ->
  run (repeat write_event n) t
  = (mkTail (app (Lines t) (firstn n ls)) (Some (concat_lines (skipn n ls)))
            (file t) (files t) (watcher t) (watchers t) (config_Timeout t), Running).
Proof.
  revert ls t. induction n as [|n IH]; intros ls t Hls Hr.
  - destruct t; simpl in *. rewrite app_nil_r, Hr. reflexivity.
  - cbn [repeat run]. unfold write_event, step. rewrite handle_write.
    destruct ls as [|s ls].
    + rewrite (readLines_partial_line_lost EmptyString t eq_refl Hr). lazy beta iota. fold write_event.
      rewrite (IH [] (set_reader (Some EmptyString) t) Hls eq_refl).
      destruct t, n; reflexivity.
    + inversion Hls as [|? ? Hs Hls']; subst.
      simpl in Hr. rewrite (readLines_complete_line s (concat_lines ls) t Hs Hr).
      lazy beta iota. fold write_event.
      rewrite (IH ls (set_Lines (app (Lines t) [s]) (set_reader (Some (concat_lines ls)) t))
                 Hls' eq_refl). simpl.
      rewrite <- app_assoc. reflexivity.
Qed.

(** When nothing is buffered, one append of the complete lines [ls]
    followed by [n] Write events handled by the same goroutine sends the
    first [n] of them, in order, and keeps the others buffered. *)
Lemma append_then_write_events (ls : list string) (n : nat) (t : tail) :
  Forall (fun s => has_nl s = false) ls ->
  reader t = Some EmptyString ->
  run (IAppend (concat_lines ls) :: repeat write_event n) t
  = (mkTail (app (Lines t) (firstn n ls)) (Some (concat_lines (skipn n ls)))
            (file t) (files t) (watcher t) (watchers t) (config_Timeout t), Running).
Proof.
  intros Hls Hr. cbn [run step].
  apply (run_write_events n ls (append_file (concat_lines ls) t) Hls).
  unfold append_file. rewrite Hr. reflexivity.
Qed.

(** X5: an event with none of the Create, Rename, Remove and Write bits
    (a Chmod event) changes nothing: no re-open, no read. *)
Theorem handle_event_other_op (op : Z) (env : list attempt) (j : nat) (t : tail) :
  Z.land op (Z.lor (Z.lor Create (Z.lor Rename Remove)) Write) = 0%Z ->
  handle_event op env j t = (t, Running).
Proof.
  intros H. rewrite Z.land_lor_distr_r in H. apply Z.lor_eq_0_iff in H as [H1 H2].
  unfold handle_event. rewrite H1, H2. reflexivity.
Qed.

Lemma handle_event_other_op_witness :
  Z.land Chmod (Z.lor (Z.lor Create (Z.lor Rename Remove)) Write) = 0%Z /\
  handle_event Chmod [] 0 (empty_tail 1) = (empty_tail 1, Running).
Proof.
  split; [reflexivity|]. apply handle_event_other_op. reflexivity.
Defined.

Lemma close_at_idem (l : list bool) (i : nat) : close_at (close_at l i) i = close_at l i.
Proof.
  revert i. induction l as [|b l IH]; intros [|i]; simpl; try reflexivity.
  rewrite IH. reflexivity.
Qed.

(** X7: calling [Close] a second time has no further effect. *)
Theorem Close_twice (t : tail) : Close (Close t) = Close t.
Proof.
  destruct t as [L r [i|] fs [k|] ws c]; unfold Close, set_file, set_watcher; simpl;
    rewrite ?close_at_idem; reflexivity.
Qed.

(** *** The retry loop, attempt by attempt *)

(** A missing file with [Timeout != 0]: the error is recorded and the loop
    goes on with [newFile = true]. *)
Lemma aw_loop_missing_step (nf : bool) (w : watch_outcome) (rest : list attempt) (t : tail) :
  config_Timeout t <> 0%Z ->
  aw_loop nf (mkAttempt FMissing w :: rest) t
  = cons_lo [Some ErrNotExist] nf (aw_loop true rest (fst (openFile nf FMissing t))).
Proof.
  intros Ht. cbn [aw_loop at_fs].
  pose proof (openFile_missing nf t) as H1. pose proof (openFile_timeout nf FMissing t) as H2.
  destruct (openFile nf FMissing t) as [t1 r1]. simpl in H1, H2 |- *. subst r1.
  rewrite H2. apply Z.eqb_neq in Ht. rewrite Ht. destruct nf; reflexivity.
Qed.

Lemma aw_loop_missing_repeat (w : watch_outcome) (k : nat) (rest : list attempt) (t : tail) :
  file t = None -> config_Timeout t <> 0%Z ->
  aw_loop true (repeat (mkAttempt FMissing w) k ++ rest) t
  = mkLO (lo_sent (aw_loop true rest t))
         (repeat (Some ErrNotExist) k ++ lo_assigns (aw_loop true rest t))
         (repeat true k ++ lo_flags (aw_loop true rest t))
         (lo_tail (aw_loop true rest t)).
Proof.
  intros Hf Ht. induction k as [|k IH].
  - simpl. destruct (aw_loop true rest t); reflexivity.
  - cbn [repeat app]. rewrite aw_loop_missing_step by exact Ht.
    rewrite (openFile_missing_no_file true t Hf). simpl. rewrite IH. reflexivity.
Qed.

(** The loop started with [newFile = false] on a tail with no file, past
    [k] attempts that find no file. *)
Lemma aw_loop_missing_prefix (w : watch_outcome) (k : nat) (rest : list attempt) (t : tail) :
  file t = None -> config_Timeout t <> 0%Z ->
  exists nf,
    lo_sent (aw_loop false (repeat (mkAttempt FMissing w) k ++ rest) t) = lo_sent (aw_loop nf rest t) /\
    lo_assigns (aw_loop false (repeat (mkAttempt FMissing w) k ++ rest) t)
    = app (repeat (Some ErrNotExist) k) (lo_assigns (aw_loop nf rest t)).
Proof.
  intros Hf Ht. destruct k as [|k]; [exists false; split; reflexivity|].
  exists true. cbn [repeat app].
  rewrite aw_loop_missing_step by exact Ht. rewrite (openFile_missing_no_file false t Hf).
  cbn [fst]. rewrite aw_loop_missing_repeat by assumption. split; reflexivity.
Qed.

(** The loop sends only after it has assigned [err]. *)
Lemma aw_loop_sent_assigns (nf : bool) (env : list attempt) (t : tail) :
  lo_sent (aw_loop nf env t) <> None -> lo_assigns (aw_loop nf env t) <> [].
Proof.
  destruct env as [|a env]; [intros H; contradiction H; reflexivity|].
  cbn [aw_loop]. destruct (openFile nf (at_fs a) t) as [t1 [e|]].
  - destruct (Z.eqb (config_Timeout t1) 0); intros _; discriminate.
  - destruct (watchFile nf (at_watch a) t1) as [t2 [e2|]]; intros _; discriminate.
Qed.

(** An attempt whose open succeeds assigns [nil] to [err], then the result
    of the watch step. *)
Lemma aw_loop_open_ok_assigns (nf : bool) (c : string) (w : watch_outcome) (env : list attempt)
  (t : tail) :
  exists y z, lo_assigns (aw_loop nf (mkAttempt (FRegular c) w :: env) t) = None :: y :: z.
Proof.
  cbn [aw_loop at_fs at_watch].
  pose proof (openFile_regular_ok nf c t) as H1.
  destruct (openFile nf (FRegular c) t) as [t1 r1]. simpl in H1. subst r1.
  destruct (watchFile nf w t1) as [t2 [e2|]]; do 2 eexists; reflexivity.
Qed.

Lemma firstn_repeat_app {A : Type} (x : A) (j n : nat) (l : list A) :
  (j <= n)%nat -> firstn j (app (repeat x n) l) = repeat x j.
Proof.
  revert n. induction j as [|j IH]; intros n H; [reflexivity|].
  destruct n as [|n]; [lia|]. simpl. rewrite IH by lia. reflexivity.
Qed.

Lemma last_repeat {A : Type} (x d : A) (j : nat) : (1 <= j)%nat -> last (repeat x j) d = x.
Proof.
  induction j as [|j IH]; intros H; [lia|].
  destruct j as [|j]; [reflexivity|]. change (last (repeat x (S j)) d = x). apply IH. lia.
Qed.

(** X8: with [Timeout != 0], when every attempt made before the timer fires
    (the first [j] assignments of [err], [1 <= j <= n]) finds no file,
    [NewTail] returns the not-found error, whatever the attempts [rest] made
    after it would find. *)
Theorem NewTail_timer_not_found (timeout : Z) (w : watch_outcome) (n j : nat)
  (rest : list attempt) :
  timeout <> 0%Z -> (1 <= j)%nat -> (j <= n)%nat ->
  NewTail timeout (repeat (mkAttempt FMissing w) n ++ rest) j = NTErr ErrNotExist.
Proof.
  intros Ht Hj Hjn. unfold NewTail, openAndWatch.
  destruct (aw_loop_missing_prefix w n rest (empty_tail timeout) eq_refl Ht) as (nf & Es & Ea).
  rewrite Es, Ea. cbn [config_Timeout empty_tail]. apply Z.eqb_neq in Ht. rewrite Ht.
  assert (He : err_at j (app (repeat (Some ErrNotExist) n) (lo_assigns (aw_loop nf rest (empty_tail timeout))))
               = Some ErrNotExist)
    by (unfold err_at; rewrite firstn_repeat_app by exact Hjn; apply last_repeat, Hj).
  destruct (lo_sent (aw_loop nf rest (empty_tail timeout))) as [v|] eqn:S.
  - assert (Hne : lo_assigns (aw_loop nf rest (empty_tail timeout)) <> [])
      by (apply aw_loop_sent_assigns; rewrite S; discriminate).
    assert (Hl : Nat.leb (List.length (app (repeat (Some ErrNotExist) n)
                                       (lo_assigns (aw_loop nf rest (empty_tail timeout))))) j = false).
    { apply Nat.leb_gt. rewrite length_app, repeat_length.
      destruct (lo_assigns (aw_loop nf rest (empty_tail timeout))); [contradiction Hne; reflexivity|].
      simpl. lia. }
    rewrite Hl, He. reflexivity.
  - rewrite He. reflexivity.
Qed.

Lemma NewTail_timer_not_found_witness :
  (3 <> 0)%Z /\ (1 <= 1)%nat /\ (1 <= 1)%nat /\
  NewTail 3 (repeat (mkAttempt FMissing WatchOk) 1 ++ [ok_file "x"]) 1 = NTErr ErrNotExist.
Proof.
  split; [discriminate|]. split; [lia|]. split; [lia|].
  apply NewTail_timer_not_found; [discriminate|lia|lia].
Defined.

(** X9: with [Timeout != 0], after [k] attempts that find no file, an
    attempt opens the file; if the timer fires right after that open
    ([err] assigned [nil], [S k] assignments in all) and before the watch
    step ends, [NewTail] returns a [Tail], whatever the watch step then
    does. *)
Theorem NewTail_timer_after_open (timeout : Z) (w0 : watch_outcome) (k : nat) (c : string)
  (w : watch_outcome) (env : list attempt) :
  timeout <> 0%Z ->
  exists t, NewTail timeout (repeat (mkAttempt FMissing w0) k ++ mkAttempt (FRegular c) w :: env)
                    (S k) = NTOk t.
Proof.
  intros Ht. unfold NewTail, openAndWatch.
  destruct (aw_loop_missing_prefix w0 k (mkAttempt (FRegular c) w :: env) (empty_tail timeout)
              eq_refl Ht) as (nf & Es & Ea).
  destruct (aw_loop_open_ok_assigns nf c w env (empty_tail timeout)) as (y & z & Ez).
  rewrite Es, Ea, Ez. cbn [config_Timeout empty_tail]. apply Z.eqb_neq in Ht. rewrite Ht.
  assert (He : err_at (S k) (app (repeat (Some ErrNotExist) k) (None :: y :: z)) = None).
  { unfold err_at. rewrite firstn_app, repeat_length, firstn_all2 by (rewrite repeat_length; lia).
    replace (S k - k)%nat with 1%nat by lia. simpl firstn. apply last_last. }
  assert (Hl : Nat.leb (List.length (app (repeat (Some ErrNotExist) k) (None :: y :: z))) (S k) = false)
    by (apply Nat.leb_gt; rewrite length_app, repeat_length; simpl; lia).
  destruct (lo_sent (aw_loop nf (mkAttempt (FRegular c) w :: env) (empty_tail timeout))) as [v|];
    [rewrite Hl|]; rewrite He; eexists; reflexivity.
Qed.

Lemma NewTail_timer_after_open_witness :
  (5 <> 0)%Z /\
  exists t, NewTail 5 (repeat (mkAttempt FMissing WatchOk) 1 ++ [mkAttempt (FRegular "") AddFails]) 2
            = NTOk t.
Proof.
  split; [discriminate|]. apply (NewTail_timer_after_open 5 WatchOk 1 "" AddFails []). discriminate.
Defined.

Lemma openAndWatch_ok_first (c : string) (env : list attempt) (j : nat) (t : tail) :
  openAndWatch (ok_file c :: env) j t
  = (fst (watchFile false WatchOk (fst (openFile false (FRegular c) t))), Some None).
Proof.
  unfold openAndWatch. rewrite aw_loop_ok_first. cbn [lo_sent lo_assigns lo_tail].
  destruct (Z.eqb (config_Timeout t) 0); [reflexivity|].
  destruct j as [|[|j]]; reflexivity.
Qed.

Lemma openAndWatch_created_later (w : watch_outcome) (k j : nat) (c : string) (t : tail) :
  config_Timeout t <> 0%Z -> (k + 3 <= j)%nat ->
  openAndWatch (repeat (mkAttempt FMissing w) (S k) ++ [ok_file c]) j t
  = (fst (watchFile true WatchOk (fst (openFile true (FRegular c)
                                         (fst (openFile false FMissing t))))), Some None).
Proof.
  intros Ht Hj. unfold openAndWatch. cbn [repeat app].
  rewrite aw_loop_missing_step by exact Ht.
  rewrite aw_loop_missing_repeat
    by (try apply openFile_missing_file; rewrite openFile_timeout; exact Ht).
  rewrite aw_loop_ok_first. cbn [cons_lo lo_sent lo_assigns lo_tail].
  apply Z.eqb_neq in Ht. rewrite Ht.
  assert (Hlen : Nat.leb (List.length ([Some ErrNotExist] ++ repeat (Some ErrNotExist) k
                                       ++ [None; None])) j = true)
    by (apply Nat.leb_le; rewrite !length_app, repeat_length; simpl; lia).
  rewrite Hlen. reflexivity.
Qed.

Lemma NewTail_existing (timeout : Z) (c : string) (env : list attempt) (j : nat) :
  NewTail timeout (ok_file c :: env) j
  = NTOk (mkTail [] (Some EmptyString) (Some 0) [true] (Some 0) [true] timeout).
Proof. unfold NewTail. rewrite openAndWatch_ok_first. reflexivity. Qed.

(** X10 (generalises TestAppendFile): for a file that exists at the first
    attempt, whatever its content [c], the timeout and the timer, [NewTail]
    sends nothing of [c]; complete lines [ls] appended in one write are then
    sent one per Write event, in order. *)
Theorem NewTail_existing_then_lines (timeout : Z) (c : string) (env : list attempt) (j : nat)
  (ls : list string) (n : nat) :
  Forall (fun s => has_nl s = false) ls ->
  nt_run timeout (ok_file c :: env) j (IAppend (concat_lines ls) :: repeat write_event n)
  = Some (mkTail (firstn n ls) (Some (concat_lines (skipn n ls)))
                 (Some 0) [true] (Some 0) [true] timeout, Running).
Proof.
  intros Hls. unfold nt_run. rewrite NewTail_existing.
  rewrite (append_then_write_events ls n
             (mkTail [] (Some EmptyString) (Some 0) [true] (Some 0) [true] timeout) Hls eq_refl).
  reflexivity.
Qed.

Lemma NewTail_existing_then_lines_witness :
  Forall (fun s => has_nl s = false) ["foobar"] /\
  nt_run 10 [ok_file "old"] 0 (IAppend (concat_lines ["foobar"]) :: repeat write_event 1)
  = Some (mkTail ["foobar"] (Some EmptyString) (Some 0) [true] (Some 0) [true] 10, Running).
Proof.
  split; [repeat constructor|].
  apply (NewTail_existing_then_lines 10 "old" [] 0 ["foobar"] 1). repeat constructor.
Defined.

(** X11 (generalises TestWriteNewFile): with [Timeout != 0], when the path
    is missing for [S k] attempts and then holds the complete lines
    [s0 :: ls0], and the timer fires after the loop is done, [NewTail]
    reads the new file from its start but its first read sends only [s0];
    lines [ls] appended later come after the rest of the file, one per Write
    event. *)
Theorem NewTail_created_later_then_lines (timeout : Z) (w : watch_outcome) (k j : nat)
  (s0 : string) (ls0 ls : list string) (n : nat) :
  timeout <> 0%Z -> (k + 3 <= j)%nat ->
  Forall (fun s => has_nl s = false) (s0 :: ls0 ++ ls) ->
  nt_run timeout (repeat (mkAttempt FMissing w) (S k) ++ [ok_file (concat_lines (s0 :: ls0))]) j
         (IAppend (concat_lines ls) :: repeat write_event n)
  = Some (mkTail (s0 :: firstn n (ls0 ++ ls)) (Some (concat_lines (skipn n (ls0 ++ ls))))
                 (Some 0) [true] (Some 0) [true] timeout, Running).
Proof.
  intros Ht Hj Hall. inversion Hall as [|? ? Hs0 Hls]; subst.
  unfold nt_run, NewTail.
  rewrite (openAndWatch_created_later w k j _ (empty_tail timeout) Ht Hj).
  rewrite watchFile_newFile.
  change (fst (watchFile false WatchOk (fst (openFile true (FRegular (concat_lines (s0 :: ls0)))
            (fst (openFile false FMissing (empty_tail timeout)))))))
    with (mkTail [] (Some (s0 ++ String nl (concat_lines ls0))) (Some 0) [true] (Some 0) [true]
                 timeout).
  rewrite (readLines_complete_line s0 (concat_lines ls0)
             (mkTail [] (Some (s0 ++ String nl (concat_lines ls0))) (Some 0) [true] (Some 0)
                     [true] timeout) Hs0 eq_refl).
  simpl.
  rewrite (run_write_events n (ls0 ++ ls) _ Hls)
    by (simpl; rewrite concat_lines_app; reflexivity).
  reflexivity.
Qed.

Lemma NewTail_created_later_then_lines_witness :
  (10 <> 0)%Z /\ (0 + 3 <= 3)%nat /\
  Forall (fun s => has_nl s = false) ("a" :: [] ++ ["foobar"]) /\
  nt_run 10 (repeat (mkAttempt FMissing WatchOk) 1 ++ [ok_file (concat_lines ["a"])]) 3
         (IAppend (concat_lines ["foobar"]) :: repeat write_event 1)
  = Some (mkTail ["a"; "foobar"] (Some EmptyString) (Some 0) [true] (Some 0) [true] 10, Running).
Proof.
  split; [discriminate|]. split; [lia|]. split; [repeat constructor|].
  apply (NewTail_created_later_then_lines 10 WatchOk 0 3 "a" [] ["foobar"] 1);
    [discriminate | lia | repeat constructor].
Defined.

Lemma openFile_true_reader (c : string) (t : tail) :
  reader (fst (openFile true (FRegular c) t)) = Some c.
Proof. reflexivity. Qed.


(** X12 (generalises TestRenameFile): with [Timeout != 0], a Create, Rename
    or Remove event without the Write bit whose re-open finds no file for
    [S k] attempts and then a new file holding [s0 ++ "\n" ++ r] (the timer
    firing after the loop) reads the new file from its start: [s0] is sent,
    [r] stays buffered, and the goroutine keeps watching. *)
Theorem reopen_rotated_file_read_from_start (op : Z) (w : watch_outcome) (k j : nat)
  (s0 r : string) (t : tail) :
  Z.land op (Z.lor Create (Z.lor Rename Remove)) <> 0%Z ->
  Z.land op Write = 0%Z ->
  config_Timeout t <> 0%Z -> (k + 3 <= j)%nat ->
  has_nl s0 = false ->
  let res := handle_event op (repeat (mkAttempt FMissing w) (S k)
                               ++ [ok_file (s0 ++ String nl r)]) j t in
  snd res = Running /\ Lines (fst res) = app (Lines t) [s0] /\ reader (fst res) = Some r.
Proof.
  intros Hop Hw Ht Hj Hs res. subst res. unfold handle_event. cbv zeta.
  apply Z.eqb_neq in Hop. rewrite Hop.
  rewrite (openAndWatch_created_later w k j _ t Ht Hj). rewrite Hw.
  cbn [Z.eqb fst snd]. rewrite watchFile_newFile.
  set (t1 := fst (watchFile false WatchOk
                   (fst (openFile true (FRegular (s0 ++ String nl r))
                           (fst (openFile false FMissing t)))))).
  destruct (watchFile_false_fields (fst (openFile true (FRegular (s0 ++ String nl r))
                                           (fst (openFile false FMissing t))))) as [HL HR].
  fold t1 in HL, HR. rewrite openFile_true_reader in HR.
  rewrite !openFile_Lines in HL.
  rewrite (readLines_complete_line s0 r t1 Hs HR).
  split; [reflexivity|].
  split; [transitivity (app (Lines t1) [s0]); [reflexivity | rewrite HL; reflexivity]
         | reflexivity].
Qed.

Lemma reopen_rotated_file_read_from_start_witness :
  Z.land Rename (Z.lor Create (Z.lor Rename Remove)) <> 0%Z /\
  Z.land Rename Write = 0%Z /\
  config_Timeout (mkTail [] (Some EmptyString) (Some 0) [true] (Some 0) [true] 10) <> 0%Z /\
  (0 + 3 <= 3)%nat /\ has_nl "foobar" = false /\
  snd (handle_event Rename (repeat (mkAttempt FMissing WatchOk) 1 ++ [ok_file (line "foobar")]) 3
         (mkTail [] (Some EmptyString) (Some 0) [true] (Some 0) [true] 10)) = Running.
Proof.
  do 5 (split; [first [discriminate | lia | reflexivity]|]).
  exact (proj1 (reopen_rotated_file_read_from_start Rename WatchOk 0 3 "foobar" EmptyString
                  (mkTail [] (Some EmptyString) (Some 0) [true] (Some 0) [true] 10)
                  ltac:(discriminate) eq_refl ltac:(discriminate) ltac:(lia) eq_refl)).
Defined.



Lemma openFile_other_error (nf : bool) (f : fs_entry) (t : tail) (e : err) :
  f <> FMissing -> snd (openFile nf f t) = Some e -> IsNotExist e = false.
Proof.
  intros Hf. unfold openFile. destruct (file t), f; simpl; intros H;
    try congruence; injection H as <-; reflexivity.
Qed.

(** X14: [newFile] becomes true only through a not-found error: in a loop
    started with [newFile = false] where no attempt finds the path missing
    (other open errors and watch errors included), every [openFile] call
    seeks to the end. *)
Theorem aw_loop_no_missing_seeks (env : list attempt) (t : tail) (b : bool) :
  (forall a, In a env -> at_fs a <> FMissing) ->
  In b (lo_flags (aw_loop false env t)) -> b = false.
Proof.
  revert t. induction env as [|a env IH]; intros t Hno Hb; [destruct Hb|].
  cbn [aw_loop] in Hb.
  pose proof (openFile_other_error false (at_fs a) t) as He.
  destruct (openFile false (at_fs a) t) as [t1 [e|]]; simpl in He.
  - rewrite (He e (Hno a (or_introl eq_refl)) eq_refl) in Hb. simpl in Hb.
    destruct (Z.eqb (config_Timeout t1) 0).
    + destruct Hb as [<-|[]]. reflexivity.
    + destruct Hb as [<-|Hb]; [reflexivity|].
      exact (IH t1 (fun a' Ha' => Hno a' (or_intror Ha')) Hb).
  - destruct (watchFile false (at_watch a) t1) as [t2 [e2|]].
    + destruct Hb as [<-|Hb]; [reflexivity|].
      exact (IH t2 (fun a' Ha' => Hno a' (or_intror Ha')) Hb).
    + destruct Hb as [<-|[]]. reflexivity.
Qed.

Lemma aw_loop_no_missing_seeks_witness :
  (forall a, In a [mkAttempt FDenied WatchOk; ok_file "x"] -> at_fs a <> FMissing) /\
  In false (lo_flags (aw_loop false [mkAttempt FDenied WatchOk; ok_file "x"] (empty_tail 5))) /\
  false = false.
Proof.
  split; [intros a [<-|[<-|[]]]; discriminate|]. split; [simpl; auto|].
  apply (aw_loop_no_missing_seeks [mkAttempt FDenied WatchOk; ok_file "x"] (empty_tail 5)).
  - intros a [<-|[<-|[]]]; discriminate.
  - simpl; auto.
Defined.

(** *** Goroutines *)

Ltac watchers_step_tac :=
  first [ left; split; reflexivity
        | right; left; split; [reflexivity | eexists; split; reflexivity]
        | right; right; left; split; reflexivity
        | right; right; right; split; reflexivity ].

Lemma tstep_watchers (th : thread) (w : world) (s : cstate) (th' : thread) (s' : cstate) :
  tstep th w s = Some (th', s') -> watchers_step s s'.
Proof.
  destruct s as [f fs wt ws ad to frs ths p].
  unfold watchers_step, tstep, call_openAndWatch, receive, send, assign_err, close_file,
    close_watcher, spawn, with_file, with_watcher, with_added, with_frames, with_threads,
    with_proc.
  destruct th as [[]|[]|k []|k [v|]|], w; cbn [c_file c_files c_watcher c_watchers c_added
    c_timeout c_frames c_threads c_proc]; intros H;
  repeat match type of H with
         | context [match ?x with _ => _ end] =>
             lazymatch x with
             | context [match _ with _ => _ end] => fail
             | _ => destruct x; try discriminate H
             end
         end;
  try discriminate H; injection H as _ <-; cbn; watchers_step_tac.
Qed.

Lemma cstep_watchers (n : nat) (w : world) (s s' : cstate) :
  cstep n w s = Some s' -> watchers_step s s'.
Proof.
  unfold cstep. destruct (c_proc s); try discriminate.
  destruct (nth_error (c_threads s) n) as [th|]; [|discriminate].
  destruct (tstep th w s) as [[th' s1]|] eqn:E; [|discriminate].
  intros H. injection H as <-. apply tstep_watchers in E.
  unfold watchers_step in *. cbn [with_threads c_watcher c_watchers]. exact E.
Qed.

(** A live watcher that [t.watcher] does not hold stays live, and
    [t.watcher] never comes to hold it: no statement closes it. *)
Lemma exec_keeps_watcher (i : nat) (l : list (nat * world)) (s s' : cstate) :
  exec l s = Some s' -> c_watcher s <> Some i -> is_live (c_watchers s) i = true ->
  c_watcher s' <> Some i /\ is_live (c_watchers s') i = true.
Proof.
  revert s. induction l as [|[n w] l IH]; intros s He Hw Hl.
  - injection He as <-. split; assumption.
  - cbn [exec] in He. destruct (cstep n w s) as [s1|] eqn:E; [|discriminate].
    enough (H1 : c_watcher s1 <> Some i /\ is_live (c_watchers s1) i = true)
      by exact (IH s1 He (proj1 H1) (proj2 H1)).
    apply cstep_watchers in E. clear He IH.
    unfold is_live in *.
    destruct (nth_error (c_watchers s) i) as [b|] eqn:Ei; [|discriminate]. subst b.
    destruct E as [[-> ->]|[[-> (j & Hj & ->)]|[[-> ->]|[-> ->]]]].
    + split; [exact Hw|rewrite Ei; reflexivity].
    + split; [exact Hw|]. rewrite nth_close_at, Ei.
      destruct (Nat.eqb_spec i j) as [->|]; [contradiction Hw|reflexivity].
    + split; [discriminate|rewrite Ei; reflexivity].
    + assert (Hlt : (i < List.length (c_watchers s))%nat)
        by (apply nth_error_Some; rewrite Ei; discriminate).
      split; [intros Heq; injection Heq as Heq; lia|].
      rewrite nth_error_app1 by exact Hlt. rewrite Ei. reflexivity.
Qed.

(** C9 (refuted): after a rotation the goroutine that handled it and the
    goroutine the re-open started both select on the new watcher; when each
    takes one of two events and their re-opens overlap, both close the same
    old handle and watcher before either installs a new one.  Right after
    [NewTail] returned, with [Timeout == 0] (no timer runs), two handles and two
    watchers are then live at once; and the watcher that [t.watcher] lost is
    never closed again by the code, [Close] included. *)
Theorem C9_overlapping_reopens_leak :
  exists s, exec overlapping_reopens (init 0) = Some s /\
    nth_error (c_threads s) 0 = Some (Main MOk) /\ c_proc s = PRunning /\
    count_live (c_files s) = 2%nat /\ count_live (c_watchers s) = 2%nat /\
    (forall l s', exec l s = Some s' -> is_live (c_watchers s') 2 = true).
Proof.
  eexists. split; [vm_compute; reflexivity|].
  split; [reflexivity|]. split; [reflexivity|]. split; [reflexivity|]. split; [reflexivity|].
  intros l s' He. refine (proj2 (exec_keeps_watcher 2 l _ s' He _ _)); [discriminate|reflexivity].
Qed.
